(** * Retrieval pipeline of the RAG notebook (test-weaviate.ipynb)

    Shallow embedding of the three functions the notebook defines,
    [split_into_chunks], [retrieve_relevant_chunks] and [answer_question],
    together with the Python builtins they rest on ([str.split], [str.join],
    slicing, [sorted]), and the cells that upload the chunks of the book.

    Conventions.
    - A Python [str] is a [string]; its characters are the code points
      0..255.  [len] is the number of characters.
    - Python integers are [Z].
    - Lists are [list]; [l.append(x)] is [l ++ [x]].
    - The embedding model, the vector store, the similarity routine of
      scikit-learn and the text-generation pipeline are external: they are
      the fields of a record [Gateways], and the content of the store is the
      list its iterator enumerates.
    - [print] calls are dropped. *)

From Stdlib Require Import List ZArith Lia Bool Ascii String.
From Stdlib Require Import Permutation Sorted.
Import ListNotations.

Local Open Scope string_scope.
Local Open Scope Z_scope.

(** ** Python builtins *)

Module Py.

(** [len(s)] for a string. *)
Definition len (s : string) : Z := Z.of_nat (String.length s).

(** [ch.isspace()] on the code points below 256: the characters
    [str.split()] treats as separators. *)
Definition isspace (c : ascii) : bool :=
  let n := Z.of_nat (nat_of_ascii c) in
  ((9 <=? n) && (n <=? 13)) || ((28 <=? n) && (n <=? 32))
  || (n =? 133) || (n =? 160).

(** Closing a word during the scan of [str.split()]: an empty run between two
    separators produces nothing. *)
Definition emit (cur : string) (rest : list string) : list string :=
  match cur with
  | EmptyString => rest
  | _ => cur :: rest
  end.

(** The scan of [str.split()]: [cur] is the word being read. *)
Fixpoint split_from (cur s : string) : list string :=
  match s with
  | EmptyString => emit cur []
  | String c s' =>
      if isspace c then emit cur (split_from EmptyString s')
      else split_from (cur ++ String c EmptyString) s'
  end.

(** [s.split()] with no argument: the maximal runs of non-whitespace. *)
Definition split (s : string) : list string := split_from EmptyString s.

(** [sep.join(l)]. *)
Definition join (sep : string) (l : list string) : string :=
  String.concat sep l.

(** The end of the slice [l[:k]] for a list of [n] elements: a negative [k]
    counts from the end, and the result is clipped to [0..n]. *)
Definition slice_stop (n k : Z) : Z :=
  if k <? 0 then Z.max (k + n) 0 else Z.min k n.

(** [l[:k]] on a list. *)
Definition slice_to {A : Type} (l : list A) (k : Z) : list A :=
  firstn (Z.to_nat (slice_stop (Z.of_nat (List.length l)) k)) l.

(** [s[:k]] on a string. *)
Definition str_slice_to (s : string) (k : Z) : string :=
  substring 0 (Z.to_nat (slice_stop (len s) k)) s.

(** One insertion of the stable ascending sort: [x] stood before every
    element of [l] in the input, so it stops at the first element that is not
    smaller than it. *)
Fixpoint insert {A K : Type} (ltb : K -> K -> bool) (key : A -> K)
    (x : A) (l : list A) : list A :=
  match l with
  | [] => [x]
  | y :: l' =>
      if ltb (key y) (key x) then y :: insert ltb key x l'
      else x :: y :: l'
  end.

(** Stable ascending sort by [key], comparing keys with [<] only. *)
Fixpoint sort_asc {A K : Type} (ltb : K -> K -> bool) (key : A -> K)
    (l : list A) : list A :=
  match l with
  | [] => []
  | x :: l' => insert ltb key x (sort_asc ltb key l')
  end.

(** [sorted(l, key=key, reverse=reverse)].  As in CPython, a reversed sort
    reverses the input, sorts it ascending and reverses the result, which is
    what keeps equal keys in their input order.  The ascending sort is
    written as a stable insertion sort: it returns what CPython's sort
    returns whenever [<] on the keys is a strict weak order (asymmetric, with
    "not smaller" transitive), which is the case the properties of the order
    of the result assume. *)
Definition sorted {A K : Type} (ltb : K -> K -> bool) (key : A -> K)
    (reverse : bool) (l : list A) : list A :=
  if reverse then rev (sort_asc ltb key (rev l)) else sort_asc ltb key l.

(** What a call of the notebook evaluates to: a value, or the [IndexError]
    of [l[0]] on an empty list. *)
Inductive result (A : Type) : Type :=
| Ok (a : A)
| IndexError.
Arguments Ok {A} a.
Arguments IndexError {A}.

(** [l[0]]. *)
Definition index0 {A : Type} (l : list A) : result A :=
  match l with
  | [] => IndexError
  | x :: _ => Ok x
  end.

End Py.

(** ** Cell 9: the chunker *)

(** The three variables of the loop of [split_into_chunks]. *)
Record chunker : Type := mkChunker {
  chunks : list string;
  current_chunk : list string;
  current_length : Z
}.

(** The body of [for word in words]. *)
Definition chunk_step (max_length : Z) (st : chunker) (word : string)
    : chunker :=
  if current_length st + Py.len word <=? max_length then
    mkChunker (chunks st)
              (current_chunk st ++ [word])
              (current_length st + (Py.len word + 1))
  else
    mkChunker (chunks st ++ [Py.join " " (current_chunk st)])
              [word]
              (Py.len word + 1).

(** The final [if current_chunk: chunks.append(...)]. *)
Definition chunk_flush (st : chunker) : list string :=
  match current_chunk st with
  | [] => chunks st
  | _ :: _ => chunks st ++ [Py.join " " (current_chunk st)]
  end.

Definition split_into_chunks (text : string) (max_length : Z) : list string :=
  let words := Py.split text in
  chunk_flush (fold_left (chunk_step max_length) words (mkChunker [] [] 0)).

(** The chunks in terms of groups of words: [pack max_length cur n ws] is
    the list of groups the loop closes, one after the other, when it reads
    [ws] with [cur] as open group and [n] as [current_length].  It is tied to
    [split_into_chunks] by [split_into_chunks_pack]. *)
Fixpoint pack (max_length : Z) (cur : list string) (n : Z)
    (ws : list string) : list (list string) :=
  match ws with
  | [] => [cur]
  | w :: ws' =>
      if n + Py.len w <=? max_length
      then pack max_length (cur ++ [w]) (n + (Py.len w + 1)) ws'
      else cur :: pack max_length [w] (Py.len w + 1) ws'
  end.

(** What [current_length] counts: every word of the open group and one
    separator for each. *)
Fixpoint total (g : list string) : Z :=
  match g with
  | [] => 0
  | w :: g' => Py.len w + 1 + total g'
  end.

(** A word as [str.split()] produces them: not empty, no whitespace. *)
Fixpoint no_space (s : string) : bool :=
  match s with
  | EmptyString => true
  | String c s' => negb (Py.isspace c) && no_space s'
  end.

Definition is_word (s : string) : Prop := s <> EmptyString /\ no_space s = true.

(** The bound a group of two words or more obeys: joined with single
    spaces it is no longer than [max_length]. *)
Definition fits (max_length : Z) (g : list string) : Prop :=
  (2 <= List.length g)%nat -> total g - 1 <= max_length.

(** ** Cells 12 to 16: retrieval *)

(** The external collaborators of the notebook. *)
Record Gateways : Type := mkGateways {
  (** what [model.encode(text).tolist()] and [item.vector["default"]] are *)
  vector : Type;
  (** the numbers [cosine_similarity] returns *)
  score : Type;
  (** [<] on these numbers, the only comparison [sorted] makes *)
  score_ltb : score -> score -> bool;
  (** [model.encode(text).tolist()] *)
  encode : string -> vector;
  (** [cosine_similarity([a], [b])[0][0]] *)
  cosine_similarity : vector -> vector -> score;
  (** [qa_pipeline(prompt, max_length=n, truncation=True)[0]['generated_text']] *)
  qa_pipeline : string -> Z -> string
}.

(** What [collection.iterator(include_vector=True)] enumerates: for each
    item its [properties["content"]] and its [vector["default"]]. *)
Definition collection (G : Gateways) : Type := list (string * vector G).

(** The list [chunks] at the end of the [for item in ...] loop. *)
Definition scored_chunks (G : Gateways) (items : collection G)
    (query : string) : list (string * score G) :=
  let query_vector := encode G query in
  map (fun item => (fst item, cosine_similarity G query_vector (snd item)))
      items.

(** [sorted(chunks, key=lambda x: x[1], reverse=True)]. *)
Definition ranked_chunks (G : Gateways) (items : collection G)
    (query : string) : list (string * score G) :=
  Py.sorted (score_ltb G) snd true (scored_chunks G items query).

Definition retrieve_relevant_chunks (G : Gateways) (items : collection G)
    (query : string) (top_k : Z) : list string :=
  let chunks := ranked_chunks G items query in
  let top_chunks := map fst (Py.slice_to chunks top_k) in
  top_chunks.

(** [before x y l]: an occurrence of [x] stands before an occurrence of [y]
    in [l]. *)
Inductive before {A : Type} (x y : A) : list A -> Prop :=
| before_here (l : list A) : In y l -> before x y (x :: l)
| before_later (z : A) (l : list A) : before x y l -> before x y (z :: l).

(** ** Cell 18: the answer *)

Definition nl : string := String "010"%char EmptyString.

(** The f-string of [answer_question]. *)
Definition prompt_of (context query : string) : string :=
  nl ++
  "        You are an helpfull assistant. Use the following context from a book to answer the user's question." ++ nl ++
  "        Only if you don't know the answer just say that you need more information." ++ nl ++
  nl ++
  "        Context:" ++ nl ++
  "        " ++ context ++ nl ++
  nl ++
  "        Use 5 sentences minimum and keep the answer concise and accurate." ++ nl ++
  nl ++
  "        Question: " ++ query ++ nl ++
  "        Answer:".

(** [response[0]['generated_text']] in [answer_question]: the text the
    pipeline generates for the prompt built from the retrieved chunks. *)
Definition generated_text (G : Gateways) (items : collection G)
    (query : string) : string :=
  let top := 5 in
  let relevant_chunks := retrieve_relevant_chunks G items query top in
  let context := Py.join nl (Py.slice_to relevant_chunks top) in
  qa_pipeline G (prompt_of context query) 200.

Definition answer_question (G : Gateways) (items : collection G)
    (query : string) : Py.result string :=
  let top := 5 in
  let relevant_chunks := retrieve_relevant_chunks G items query top in
  let response := generated_text G items query in
  if Py.len response <? 10 then
    match Py.index0 relevant_chunks with
    | Py.IndexError => Py.IndexError
    | Py.Ok fallback_chunk =>
        Py.Ok (response ++ " (Additional context: "
                 ++ Py.str_slice_to fallback_chunk 200 ++ "...)")
    end
  else Py.Ok response.

(** ** A small instance, for the closing examples

    Vectors of integers scored by their dot product, and a generator that
    answers every prompt with the same [reply]. *)

Fixpoint dot (a b : list Z) : Z :=
  match a, b with
  | x :: a', y :: b' => x * y + dot a' b'
  | _, _ => 0
  end.

Definition toy (reply : string) : Gateways :=
  mkGateways (list Z) Z Z.ltb (fun _ => [1; 0]) dot (fun _ _ => reply).

Definition toy_items : collection (toy "No") :=
  [("first", [1; 0]); ("second", [0; 1]); ("third", [1; 5])].

(** ** Cells 10 and 12: the upload of the chunks

    [collection_object.data.insert(properties={"content": chunk},
    vector=vector)] adds one item to the collection.  The item is put at the
    end of the enumeration here; what is proved of the upload is stated for
    every order in which the store may enumerate its items. *)

(** The body of [for chunk in chunks] in cell 12. *)
Definition upload_step (G : Gateways) (items : collection G)
    (chunk : string) : collection G :=
  let vector := encode G chunk in
  (items ++ [(chunk, vector)])%list.

Definition upload_chunks (G : Gateways) (chunks : list string)
    (items : collection G) : collection G :=
  fold_left (upload_step G) chunks items.

(** Cells 10 and 12 together: [chunks = split_into_chunks(book_text)], with
    the default [max_length=500], then the upload. *)
Definition ingest (G : Gateways) (book_text : string)
    (items : collection G) : collection G :=
  let chunks := split_into_chunks book_text 500 in
  upload_chunks G chunks items.

(** A text made of whitespace only. *)
Fixpoint all_space (s : string) : bool :=
  match s with
  | EmptyString => true
  | String c s' => Py.isspace c && all_space s'
  end.

(** What [current_length] is when a chunk is closed, in terms of the chunk:
    nothing for the empty chunk, and otherwise its length and the separator
    counted for its last word. *)
Definition closing_length (chunk : string) : Z :=
  match chunk with
  | EmptyString => 0
  | String _ _ => Py.len chunk + 1
  end.

(** * Properties *)

(** ** Strings *)

Section Strings.

Lemma append_empty_r (s : string) : s ++ "" = s.
Proof. induction s as [|c s IH]; simpl; [reflexivity | now rewrite IH]. Qed.

Lemma append_assoc (a b c : string) : (a ++ b) ++ c = a ++ (b ++ c).
Proof. induction a as [|x a IH]; simpl; [reflexivity | now rewrite IH]. Qed.

Lemma len_append (a b : string) : Py.len (a ++ b) = Py.len a + Py.len b.
Proof.
  unfold Py.len. induction a as [|x a IH]; simpl String.length.
  - reflexivity.
  - rewrite !Nat2Z.inj_succ. lia.
Qed.

Lemma len_nonneg (s : string) : 0 <= Py.len s.
Proof. unfold Py.len. lia. Qed.




Lemma prefix_substring (n : nat) (s : string) : prefix (substring 0 n s) s = true.
Proof.
  revert s. induction n as [|n IH]; intros [|c s]; simpl; try reflexivity.
  destruct (ascii_dec c c) as [_|N]; [apply IH | now elim N].
Qed.

Lemma length_substring (n : nat) (s : string) :
  String.length (substring 0 n s) = Nat.min n (String.length s).
Proof.
  revert s. induction n as [|n IH]; intros [|c s]; simpl; try reflexivity.
  now rewrite IH.
Qed.

End Strings.

(** ** [str.split] and [str.join] *)

Section Split.

Lemma emit_app (cur : string) (a b : list string) :
  Py.emit cur (a ++ b) = (Py.emit cur a ++ b)%list.
Proof. now destruct cur. Qed.

Lemma no_space_append (a b : string) :
  no_space (a ++ b) = no_space a && no_space b.
Proof.
  induction a as [|c a IH]; simpl; [reflexivity|].
  now rewrite IH, andb_assoc.
Qed.

(** A separator in the middle of a text cuts the scan in two. *)
Lemma split_from_sep (c : ascii) (a b cur : string) :
  Py.isspace c = true ->
  Py.split_from cur (a ++ String c b)
  = (Py.split_from cur a ++ Py.split b)%list.
Proof.
  intros Hc. revert cur. induction a as [|x a IH]; intros cur; simpl.
  - rewrite Hc. now rewrite <- emit_app.
  - destruct (Py.isspace x).
    + rewrite IH. now rewrite emit_app.
    + apply IH.
Qed.

Lemma split_from_no_space (w cur : string) :
  no_space w = true -> Py.split_from cur w = Py.emit (cur ++ w) [].
Proof.
  revert cur. induction w as [|c w IH]; intros cur H; simpl in *.
  - now rewrite append_empty_r.
  - apply andb_true_iff in H as [Hc Hw].
    apply negb_true_iff in Hc. rewrite Hc, (IH _ Hw).
    now rewrite append_assoc.
Qed.

(** A text without whitespace is its own single word. *)
Lemma split_word (w : string) : is_word w -> Py.split w = [w].
Proof.
  intros [Hne Hw]. unfold Py.split. rewrite (split_from_no_space _ _ Hw).
  simpl. destruct w; [now elim Hne | reflexivity].
Qed.

Lemma split_empty : Py.split "" = [].
Proof. reflexivity. Qed.

Lemma split_from_words (s cur : string) :
  no_space cur = true -> Forall is_word (Py.split_from cur s).
Proof.
  revert cur. induction s as [|c s IH]; intros cur Hcur; simpl.
  - destruct cur; simpl; constructor; [|constructor].
    split; [discriminate | exact Hcur].
  - destruct (Py.isspace c) eqn:Hc.
    + destruct cur; simpl; [now apply IH|].
      constructor; [split; [discriminate | exact Hcur] | now apply IH].
    + apply IH. rewrite no_space_append, Hcur. simpl. now rewrite Hc.
Qed.

(** Every element of [text.split()] is a word. *)
Lemma split_words (text : string) : Forall is_word (Py.split text).
Proof. now apply split_from_words. Qed.

Lemma space_isspace : Py.isspace " "%char = true.
Proof. reflexivity. Qed.

(** Splitting what [" ".join] made of words gives the words back. *)
Lemma split_join (g : list string) :
  Forall is_word g -> Py.split (Py.join " " g) = g.
Proof.
  induction g as [|w g IH]; intros H; [reflexivity|].
  inversion H as [|? ? Hw Hg]; subst.
  destruct g as [|w' g]; [now apply split_word|].
  change (Py.join " " (w :: w' :: g))
    with (w ++ String " "%char (Py.join " " (w' :: g))).
  unfold Py.split at 1. rewrite (split_from_sep _ _ _ _ space_isspace).
  fold (Py.split w). rewrite (split_word _ Hw), (IH Hg). reflexivity.
Qed.

Lemma join_cons (w : string) (g : list string) :
  g <> [] -> Py.join " " (w :: g) = w ++ " " ++ Py.join " " g.
Proof. destruct g; [now intros H; elim H | reflexivity]. Qed.

Lemma join_app (a b : list string) :
  a <> [] -> b <> [] ->
  Py.join " " (a ++ b)%list = Py.join " " a ++ " " ++ Py.join " " b.
Proof.
  induction a as [|w a IH]; intros Ha Hb; [now elim Ha|].
  destruct a as [|w' a].
  - simpl app. now rewrite join_cons.
  - rewrite <- app_comm_cons, !join_cons by (try discriminate; now destruct a).
    rewrite IH by (try discriminate; exact Hb).
    now rewrite !append_assoc.
Qed.

(** The length of a joined group is what [current_length] counted, less the
    separator of the last word. *)
Lemma len_join (g : list string) :
  g <> [] -> Py.len (Py.join " " g) = total g - 1.
Proof.
  induction g as [|w g IH]; intros H; [now elim H|].
  destruct g as [|w' g].
  - simpl. lia.
  - rewrite join_cons by discriminate. rewrite !len_append, IH by discriminate.
    change (Py.len " ") with 1. simpl total. lia.
Qed.

End Split.

(** ** The chunker *)

Section Chunker.

Variable max_length : Z.

(** The loop closes exactly the groups of [pack]. *)
Lemma fold_chunk_step_pack (ws : list string) (st : chunker) :
  current_chunk st <> [] \/ ws <> [] ->
  chunk_flush (fold_left (chunk_step max_length) ws st)
  = (chunks st
     ++ map (Py.join " ")
            (pack max_length (current_chunk st) (current_length st) ws))%list.
Proof.
  revert st. induction ws as [|w ws IH]; intros st H.
  - destruct H as [H|H]; [|now elim H].
    unfold chunk_flush. simpl. now destruct (current_chunk st).
  - simpl fold_left. simpl pack. unfold chunk_step at 2.
    destruct (current_length st + Py.len w <=? max_length).
    + rewrite IH; [reflexivity|].
      left. simpl. now destruct (current_chunk st).
    + rewrite IH by (left; discriminate). simpl.
      now rewrite <- app_assoc.
Qed.

Lemma split_into_chunks_pack (text : string) :
  split_into_chunks text max_length
  = match Py.split text with
    | [] => []
    | _ :: _ => map (Py.join " ") (pack max_length [] 0 (Py.split text))
    end.
Proof.
  unfold split_into_chunks. destruct (Py.split text) as [|w ws]; [reflexivity|].
  now rewrite fold_chunk_step_pack by (right; discriminate).
Qed.

Lemma total_app (a b : list string) : total (a ++ b) = total a + total b.
Proof. induction a as [|w a IH]; simpl; [reflexivity | rewrite IH; lia]. Qed.

Lemma pack_nonnil (cur : list string) (n : Z) (ws : list string) :
  pack max_length cur n ws <> [].
Proof.
  revert cur n. induction ws as [|w ws IH]; intros cur n; simpl.
  - discriminate.
  - destruct (n + Py.len w <=? max_length); [apply IH | discriminate].
Qed.

(** The groups hold the words read, in the order read. *)
Lemma concat_pack (cur : list string) (n : Z) (ws : list string) :
  List.concat (pack max_length cur n ws) = (cur ++ ws)%list.
Proof.
  revert cur n. induction ws as [|w ws IH]; intros cur n; simpl.
  - reflexivity.
  - destruct (n + Py.len w <=? max_length).
    + rewrite IH. now rewrite <- app_assoc.
    + simpl. now rewrite IH.
Qed.

(** Once a group is open, no closed group is empty. *)
Lemma pack_nonempty (cur : list string) (n : Z) (ws : list string) :
  cur <> [] -> Forall (fun g => g <> []) (pack max_length cur n ws).
Proof.
  revert cur n. induction ws as [|w ws IH]; intros cur n H; simpl.
  - now constructor.
  - destruct (n + Py.len w <=? max_length).
    + apply IH. now destruct cur.
    + constructor; [exact H | apply IH; discriminate].
Qed.

Lemma pack_fits (cur : list string) (n : Z) (ws : list string) :
  n = total cur -> fits max_length cur ->
  Forall (fits max_length) (pack max_length cur n ws).
Proof.
  revert cur n. induction ws as [|w ws IH]; intros cur n Hn Hcur; simpl.
  - now constructor.
  - destruct (n + Py.len w <=? max_length) eqn:Hle.
    + apply IH.
      * rewrite total_app. simpl. lia.
      * intros _. rewrite total_app. simpl. apply Z.leb_le in Hle. lia.
    + constructor; [exact Hcur|]. apply IH; [simpl; lia|].
      intros H. simpl in H. lia.
Qed.

Lemma Forall_concat_inv {A : Type} (P : A -> Prop) (gs : list (list A)) :
  Forall P (List.concat gs) -> Forall (Forall P) gs.
Proof.
  induction gs as [|g gs IH]; simpl; intros H; [constructor|].
  apply Forall_app in H as [Hg Hgs]. constructor; [exact Hg | now apply IH].
Qed.

(** Every chunk is the join of a group of words of the text, and a group of
    two words or more fits. *)
Lemma chunk_group (text c : string) :
  In c (split_into_chunks text max_length) ->
  exists g, c = Py.join " " g /\ Forall is_word g /\ fits max_length g.
Proof.
  rewrite split_into_chunks_pack.
  destruct (Py.split text) as [|w ws] eqn:Hs; [now intros []|].
  intros Hin. apply in_map_iff in Hin as [g [Hc Hg]].
  exists g. split; [now symmetry|]. split.
  - assert (Hall : Forall (Forall is_word) (pack max_length [] 0 (w :: ws))).
    { apply Forall_concat_inv. rewrite concat_pack. simpl.
      rewrite <- Hs. apply split_words. }
    rewrite Forall_forall in Hall. now apply Hall.
  - assert (Hall : Forall (fits max_length) (pack max_length [] 0 (w :: ws))).
    { apply pack_fits; [reflexivity|]. intros H. simpl in H. lia. }
    rewrite Forall_forall in Hall. now apply Hall.
Qed.

(** A chunk of two words or more is no longer than [max_length]. *)
Lemma chunk_many_words_bound (text c : string) :
  In c (split_into_chunks text max_length) ->
  (2 <= List.length (Py.split c))%nat -> Py.len c <= max_length.
Proof.
  intros Hin H2. destruct (chunk_group _ _ Hin) as [g [-> [Hw Hf]]].
  rewrite (split_join _ Hw) in H2.
  rewrite len_join by (destruct g; [simpl in H2; lia | discriminate]).
  now apply Hf.
Qed.

(** With a limit that is not negative, a chunk longer than the limit is a
    single word. *)
Lemma chunk_over_length_single (text c : string) :
  0 <= max_length ->
  In c (split_into_chunks text max_length) ->
  max_length < Py.len c -> Py.split c = [c].
Proof.
  intros HL Hin Hlen. destruct (chunk_group _ _ Hin) as [g [-> [Hw Hf]]].
  destruct g as [|w [|w' g]].
  - simpl in Hlen. unfold Py.len in Hlen. simpl in Hlen. lia.
  - inversion Hw; subst. now apply split_word.
  - rewrite len_join in Hlen by discriminate.
    assert (total (w :: w' :: g) - 1 <= max_length) by (apply Hf; simpl; lia).
    lia.
Qed.

(** The words of a joined list of texts are the words of the texts. *)
Lemma split_join_concat (cs : list string) :
  Py.split (Py.join " " cs) = List.concat (map Py.split cs).
Proof.
  induction cs as [|c cs IH]; [reflexivity|].
  destruct cs as [|c' cs].
  - simpl. now rewrite app_nil_r.
  - change (Py.join " " (c :: c' :: cs))
      with (c ++ String " "%char (Py.join " " (c' :: cs))).
    unfold Py.split at 1. rewrite (split_from_sep _ _ _ _ space_isspace).
    fold (Py.split c). now rewrite IH.
Qed.

Lemma map_split_join (gs : list (list string)) :
  Forall (Forall is_word) gs -> map Py.split (map (Py.join " ") gs) = gs.
Proof.
  induction 1 as [|g gs Hg _ IH]; simpl; [reflexivity|].
  now rewrite (split_join _ Hg), IH.
Qed.

(** No word is lost, none is duplicated, and the order is that of the text:
    the words of the chunks, chunk after chunk, are the words of the text. *)
Lemma split_into_chunks_words (text : string) :
  List.concat (map Py.split (split_into_chunks text max_length)) = Py.split text.
Proof.
  rewrite split_into_chunks_pack.
  destruct (Py.split text) as [|w ws] eqn:Hs; [reflexivity|].
  rewrite map_split_join, concat_pack; [reflexivity|].
  apply Forall_concat_inv. rewrite concat_pack. simpl.
  rewrite <- Hs. apply split_words.
Qed.

Lemma split_join_chunks (text : string) :
  Py.split (Py.join " " (split_into_chunks text max_length)) = Py.split text.
Proof. rewrite split_join_concat. apply split_into_chunks_words. Qed.

Lemma join_map_join (gs : list (list string)) :
  Forall (fun g => g <> []) gs ->
  Py.join " " (map (Py.join " ") gs) = Py.join " " (List.concat gs).
Proof.
  induction 1 as [|g gs Hg Hgs IH]; [reflexivity|].
  destruct gs as [|g' gs].
  - simpl. now rewrite app_nil_r.
  - change (map (Py.join " ") (g :: g' :: gs))
      with (Py.join " " g :: map (Py.join " ") (g' :: gs)).
    rewrite join_cons by discriminate. rewrite IH.
    change (List.concat (g :: g' :: gs)) with (g ++ List.concat (g' :: gs))%list.
    rewrite join_app; [reflexivity | exact Hg |].
    inversion Hgs; subst. simpl. now destruct g'.
Qed.

(** The text the chunks make when joined with single spaces: the words of
    the text joined with single spaces, after one more space when the first
    word is longer than [max_length]. *)
Lemma join_chunks (text : string) :
  Py.join " " (split_into_chunks text max_length)
  = match Py.split text with
    | [] => ""
    | w :: _ =>
        if Py.len w <=? max_length then Py.join " " (Py.split text)
        else " " ++ Py.join " " (Py.split text)
    end.
Proof.
  rewrite split_into_chunks_pack.
  destruct (Py.split text) as [|w ws]; [reflexivity|].
  simpl pack. change (0 + Py.len w) with (Py.len w).
  destruct (Py.len w <=? max_length).
  - rewrite join_map_join by (apply pack_nonempty; discriminate).
    now rewrite concat_pack.
  - change (map (Py.join " ") ([] :: ?l)) with ("" :: map (Py.join " ") l).
    simpl map. rewrite join_cons.
    + rewrite join_map_join by (apply pack_nonempty; discriminate).
      now rewrite concat_pack.
    + intros H. apply map_eq_nil in H. now apply pack_nonnil in H.
Qed.

(** A text that is one word: one chunk when the word fits, and an empty
    chunk before it when it does not. *)
Lemma split_into_chunks_one_word (w : string) :
  is_word w ->
  split_into_chunks w max_length
  = if Py.len w <=? max_length then [w] else [""; w].
Proof.
  intros Hw. unfold split_into_chunks. rewrite (split_word _ Hw). simpl.
  unfold chunk_step. simpl.
  now destruct (Py.len w <=? max_length).
Qed.

Lemma split_into_chunks_empty : split_into_chunks "" max_length = [].
Proof. reflexivity. Qed.

End Chunker.

(** ** Slices and [sorted] *)

Section Sorting.

Context {A K : Type}.
Variable ltb : K -> K -> bool.
Variable key : A -> K.

Lemma insert_length (x : A) (l : list A) :
  List.length (Py.insert ltb key x l) = S (List.length l).
Proof.
  induction l as [|y l IH]; simpl; [reflexivity|].
  destruct (ltb (key y) (key x)); simpl; [now rewrite IH | reflexivity].
Qed.

Lemma sort_asc_length (l : list A) :
  List.length (Py.sort_asc ltb key l) = List.length l.
Proof.
  induction l as [|x l IH]; simpl; [reflexivity|].
  now rewrite insert_length, IH.
Qed.

(** [sorted] returns as many elements as it is given. *)
Lemma sorted_length (reverse : bool) (l : list A) :
  List.length (Py.sorted ltb key reverse l) = List.length l.
Proof.
  unfold Py.sorted. destruct reverse.
  - now rewrite length_rev, sort_asc_length, length_rev.
  - apply sort_asc_length.
Qed.

Lemma insert_In (x y : A) (l : list A) :
  In y (Py.insert ltb key x l) <-> y = x \/ In y l.
Proof.
  induction l as [|z l IH]; simpl.
  - intuition congruence.
  - destruct (ltb (key z) (key x)); simpl; rewrite ?IH; intuition congruence.
Qed.

Lemma sort_asc_In (y : A) (l : list A) :
  In y (Py.sort_asc ltb key l) <-> In y l.
Proof.
  induction l as [|x l IH]; simpl; [reflexivity|].
  rewrite insert_In, IH. intuition congruence.
Qed.

(** Inserting an element leaves the others in their order. *)
Lemma before_insert (x y z : A) (l : list A) :
  before x y l -> before x y (Py.insert ltb key z l).
Proof.
  induction 1 as [l Hy | a l H IH]; simpl.
  - destruct (ltb (key x) (key z)).
    + apply before_here. apply insert_In. now right.
    + now apply before_later, before_here.
  - destruct (ltb (key a) (key z)).
    + now apply before_later.
    + now apply before_later, before_later.
Qed.

(** The inserted element stops before every element that is not smaller. *)
Lemma before_insert_new (x y : A) (l : list A) :
  In y l -> ltb (key y) (key x) = false ->
  before x y (Py.insert ltb key x l).
Proof.
  intros Hy Hlt. induction l as [|a l IH]; [now elim Hy|]. simpl.
  destruct (ltb (key a) (key x)) eqn:Ha.
  - apply before_later, IH. destruct Hy as [->|Hy]; [congruence | exact Hy].
  - now apply before_here.
Qed.

Lemma sort_asc_before (x y : A) (l : list A) :
  before x y l -> ltb (key y) (key x) = false ->
  before x y (Py.sort_asc ltb key l).
Proof.
  intros H Hlt. induction H as [l Hy | a l H IH]; simpl.
  - apply before_insert_new; [now apply sort_asc_In | exact Hlt].
  - now apply before_insert.
Qed.

Lemma before_app_l (x y : A) (l l' : list A) :
  before x y l -> before x y (l ++ l').
Proof.
  induction 1 as [l Hy | a l H IH]; simpl.
  - apply before_here, in_or_app. now left.
  - now apply before_later.
Qed.

Lemma before_app_cross (x y : A) (l l' : list A) :
  In x l -> In y l' -> before x y (l ++ l').
Proof.
  intros Hx Hy. induction l as [|a l IH]; [now elim Hx|]. simpl.
  destruct Hx as [->|Hx].
  - apply before_here, in_or_app. now right.
  - now apply before_later, IH.
Qed.

Lemma before_rev (x y : A) (l : list A) :
  before x y l -> before y x (rev l).
Proof.
  induction 1 as [l Hy | a l H IH]; simpl.
  - apply before_app_cross; [now apply in_rev in Hy | now left].
  - now apply before_app_l.
Qed.

(** The reversed sort keeps [x] before [y] unless [x] is smaller. *)
Lemma sorted_reverse_before (x y : A) (l : list A) :
  before x y l -> ltb (key x) (key y) = false ->
  before x y (Py.sorted ltb key true l).
Proof.
  intros H Hlt. unfold Py.sorted.
  apply before_rev, sort_asc_before; [now apply before_rev | exact Hlt].
Qed.

(** Stability on a class of tied keys: the elements of the class come out in
    the order they came in. *)
Section Ties.

Variable tie : K -> bool.
Hypothesis tie_not_lt :
  forall a b, tie a = true -> tie b = true -> ltb a b = false.

Lemma filter_insert (x : A) (l : list A) :
  filter (fun a => tie (key a)) (Py.insert ltb key x l)
  = filter (fun a => tie (key a)) (x :: l).
Proof.
  induction l as [|y l IH]; [reflexivity|].
  simpl Py.insert. destruct (ltb (key y) (key x)) eqn:Hlt; [|reflexivity].
  simpl filter at 1. rewrite IH. simpl.
  destruct (tie (key y)) eqn:Hy, (tie (key x)) eqn:Hx; try reflexivity.
  rewrite (tie_not_lt _ _ Hy Hx) in Hlt. discriminate.
Qed.

Lemma filter_sort_asc (l : list A) :
  filter (fun a => tie (key a)) (Py.sort_asc ltb key l)
  = filter (fun a => tie (key a)) l.
Proof.
  induction l as [|x l IH]; [reflexivity|].
  simpl Py.sort_asc. rewrite filter_insert. simpl. now rewrite IH.
Qed.

Lemma filter_sorted (reverse : bool) (l : list A) :
  filter (fun a => tie (key a)) (Py.sorted ltb key reverse l)
  = filter (fun a => tie (key a)) l.
Proof.
  unfold Py.sorted. destruct reverse; [|apply filter_sort_asc].
  now rewrite filter_rev, filter_sort_asc, filter_rev, rev_involutive.
Qed.

End Ties.

End Sorting.

Section Slices.

Lemma slice_stop_range (n k : Z) : 0 <= n -> 0 <= Py.slice_stop n k <= n.
Proof. unfold Py.slice_stop. destruct (k <? 0) eqn:H; lia. Qed.

Lemma slice_to_length {A : Type} (l : list A) (k : Z) :
  Z.of_nat (List.length (Py.slice_to l k))
  = Py.slice_stop (Z.of_nat (List.length l)) k.
Proof.
  unfold Py.slice_to. rewrite length_firstn.
  pose proof (slice_stop_range (Z.of_nat (List.length l)) k). lia.
Qed.

Lemma str_slice_to_len (s : string) (k : Z) :
  Py.len (Py.str_slice_to s k) = Py.slice_stop (Py.len s) k.
Proof.
  unfold Py.str_slice_to, Py.len at 1. rewrite length_substring.
  pose proof (slice_stop_range (Py.len s) k (len_nonneg s)).
  unfold Py.len in *. lia.
Qed.

End Slices.

(** ** Retrieval *)

Section Retrieval.

Variable G : Gateways.
Variable items : collection G.
Variable query : string.

Lemma scored_chunks_length :
  List.length (scored_chunks G items query) = List.length items.
Proof. apply length_map. Qed.

Lemma ranked_chunks_length :
  List.length (ranked_chunks G items query) = List.length items.
Proof. unfold ranked_chunks. now rewrite sorted_length, scored_chunks_length. Qed.

(** The number of chunks retrieved is the end of the slice. *)
Lemma retrieve_length (top_k : Z) :
  Z.of_nat (List.length (retrieve_relevant_chunks G items query top_k))
  = Py.slice_stop (Z.of_nat (List.length items)) top_k.
Proof.
  unfold retrieve_relevant_chunks. cbv zeta.
  now rewrite length_map, slice_to_length, ranked_chunks_length.
Qed.

(** With a positive [top_k], nothing is retrieved only from an empty
    collection. *)
Lemma retrieve_nil_iff (top_k : Z) :
  0 < top_k ->
  retrieve_relevant_chunks G items query top_k = [] <-> items = [].
Proof.
  intros Hk. pose proof (retrieve_length top_k) as H.
  unfold Py.slice_stop in H. destruct (top_k <? 0) eqn:E; [lia|].
  split; intros H0.
  - rewrite H0 in H. destruct items; [reflexivity|].
    simpl List.length in H. lia.
  - destruct (retrieve_relevant_chunks G items query top_k); [reflexivity|].
    rewrite H0 in H. simpl List.length in H. lia.
Qed.

End Retrieval.

(** ** The answer *)

Section Answer.

Variable G : Gateways.
Variable items : collection G.
Variable query : string.

(** A generated text of ten characters or more is returned as it is. *)
Lemma answer_long :
  10 <= Py.len (generated_text G items query) ->
  answer_question G items query = Py.Ok (generated_text G items query).
Proof.
  intros H. unfold answer_question. cbv zeta.
  destruct (Py.len (generated_text G items query) <? 10) eqn:E;
    [apply Z.ltb_lt in E; lia | reflexivity].
Qed.

(** A shorter one is completed with the start of the first chunk. *)
Lemma answer_short (fallback_chunk : string) (rest : list string) :
  retrieve_relevant_chunks G items query 5 = fallback_chunk :: rest ->
  Py.len (generated_text G items query) < 10 ->
  answer_question G items query
  = Py.Ok (generated_text G items query ++ " (Additional context: "
             ++ Py.str_slice_to fallback_chunk 200 ++ "...)").
Proof.
  intros Hr H. unfold answer_question. cbv zeta.
  apply Z.ltb_lt in H. now rewrite H, Hr.
Qed.

(** And there is no first chunk to take when nothing was retrieved. *)
Lemma answer_short_nothing_retrieved :
  retrieve_relevant_chunks G items query 5 = [] ->
  Py.len (generated_text G items query) < 10 ->
  answer_question G items query = Py.IndexError.
Proof.
  intros Hr H. unfold answer_question. cbv zeta.
  apply Z.ltb_lt in H. now rewrite H, Hr.
Qed.

End Answer.

(** [<] on [Z], the scores of the small instance, is a strict weak order. *)
Lemma Z_ltb_asym (a b : Z) : (a <? b) = true -> (b <? a) = false.
Proof. intros H. apply Z.ltb_lt in H. apply Z.ltb_ge. lia. Qed.

Lemma Z_ltb_ntrans (a b c : Z) :
  (a <? b) = false -> (b <? c) = false -> (a <? c) = false.
Proof. rewrite !Z.ltb_ge. lia. Qed.

(** * The claims *)

(** C1 (the code departs from it).  When nothing is retrieved and the
    generated text is shorter than ten characters, [answer_question] does not
    produce a "no context available" outcome: it evaluates
    [relevant_chunks[0]] on the empty list and ends in [IndexError]. *)
Theorem C1_empty_retrieval_index_error
    (G : Gateways) (items : collection G) (query : string) :
  retrieve_relevant_chunks G items query 5 = [] ->
  Py.len (generated_text G items query) < 10 ->
  answer_question G items query = Py.IndexError.
Proof. apply answer_short_nothing_retrieved. Qed.

Lemma C1_empty_retrieval_index_error_witness :
  retrieve_relevant_chunks (toy "No") [] "q" 5 = []
  /\ Py.len (generated_text (toy "No") [] "q") < 10
  /\ answer_question (toy "No") [] "q" = Py.IndexError.
Proof.
  split; [reflexivity|]. split; [reflexivity|].
  apply (C1_empty_retrieval_index_error (toy "No") [] "q");
    reflexivity.
Defined.

(** C2, as stated, fails: a negative [top_k] does not give the empty list.
    From three items, [top_k = -1] retrieves two chunks. *)
Lemma C2_negative_top_k_counterexample :
  ~ (forall (G : Gateways) (items : collection G) (query : string) (k : Z),
        (0 < k ->
         Z.of_nat (List.length (retrieve_relevant_chunks G items query k))
         = Z.min k (Z.of_nat (List.length items)))
        /\ (k <= 0 \/ items = [] ->
            retrieve_relevant_chunks G items query k = [])).
Proof.
  intros H.
  destruct (H (toy "No") toy_items "q" (-1)) as [_ H0].
  assert (E : retrieve_relevant_chunks (toy "No") toy_items "q" (-1) = [])
    by (apply H0; left; lia).
  vm_compute in E. discriminate E.
Qed.

(** C2, amended.  For every collection and every [top_k >= 0] the number of
    chunks retrieved is [min(top_k, number of items)]; the result is the
    empty list when [top_k = 0] or the collection is empty; and for a
    negative [top_k] the slice [chunks[:top_k]] drops the last [-top_k]
    ranked entries, which leaves [max(number of items + top_k, 0)] chunks.
    No case raises an error. *)
Theorem C2_retrieve_count
    (G : Gateways) (items : collection G) (query : string) (k : Z) :
  (0 <= k ->
   Z.of_nat (List.length (retrieve_relevant_chunks G items query k))
   = Z.min k (Z.of_nat (List.length items)))
  /\ (k < 0 ->
      Z.of_nat (List.length (retrieve_relevant_chunks G items query k))
      = Z.max (Z.of_nat (List.length items) + k) 0)
  /\ (k = 0 \/ items = [] -> retrieve_relevant_chunks G items query k = []).
Proof.
  pose proof (retrieve_length G items query k) as H.
  pose proof (slice_stop_range (Z.of_nat (List.length items)) k
                (Nat2Z.is_nonneg _)) as R.
  rewrite <- H in R. unfold Py.slice_stop in H.
  split; [|split].
  - intros Hk. destruct (k <? 0) eqn:E; [apply Z.ltb_lt in E; lia | exact H].
  - intros Hk. apply Z.ltb_lt in Hk. rewrite Hk in H. lia.
  - intros Hk.
    destruct (retrieve_relevant_chunks G items query k); [reflexivity|].
    simpl List.length in H.
    exfalso. destruct Hk as [-> | ->]; simpl in H, R; lia.
Qed.

Lemma C2_retrieve_count_witness :
  (0 <= 2
   /\ Z.of_nat (List.length (retrieve_relevant_chunks (toy "No") toy_items "q" 2))
      = Z.min 2 3)
  /\ (-1 < 0
      /\ Z.of_nat (List.length
                     (retrieve_relevant_chunks (toy "No") toy_items "q" (-1)))
         = Z.max (3 + -1) 0)
  /\ retrieve_relevant_chunks (toy "No") toy_items "q" 0 = [].
Proof.
  split; [|split].
  - split; [lia|].
    apply (proj1 (C2_retrieve_count (toy "No") toy_items "q" 2)). lia.
  - split; [lia|].
    apply (proj1 (proj2 (C2_retrieve_count (toy "No") toy_items "q" (-1)))).
    lia.
  - apply (proj2 (proj2 (C2_retrieve_count (toy "No") toy_items "q" 0))).
    left. reflexivity.
Defined.

(** C3, as stated, fails: the chunks of ["a b c d"] with limit 3 are not
    ["a b"], ["c"], ["d"]. *)
Lemma C3_split_a_b_c_d_counterexample :
  split_into_chunks "a b c d" 3 <> ["a b"; "c"; "d"].
Proof. vm_compute. discriminate. Qed.

(** C3, amended.  [split_into_chunks] applied to ["a b c d"] with
    [max_length = 3] returns exactly ["a b"; "c d"]: after ["c"] the running
    length is 2, so ["d"] still passes the test [2 + 1 <= 3]. *)
Theorem C3_split_a_b_c_d : split_into_chunks "a b c d" 3 = ["a b"; "c d"].
Proof. reflexivity. Qed.

(** C4 (the code departs from it).  The text ["hello"] has no whitespace,
    and with [max_length = 3] the chunker returns two chunks, an empty one
    and the word, not the word alone. *)
Theorem C4_long_single_word_two_chunks :
  is_word "hello" /\ split_into_chunks "hello" 3 = [""; "hello"].
Proof. split; [split; [discriminate | reflexivity] | reflexivity]. Qed.




(** C6 (the code departs from it).  With [max_length = 3 > 0] the chunks of
    ["hello"], joined with single spaces, make [" hello"], while the words of
    the text joined with single spaces make ["hello"]: the empty first chunk
    puts a space in front. *)
Theorem C6_join_has_leading_space :
  Py.join " " (split_into_chunks "hello" 3) = " hello"
  /\ Py.join " " (Py.split "hello") = "hello".
Proof. split; reflexivity. Qed.

(** With a negative limit the empty chunk that precedes an over-long first
    word is itself longer than the limit, and holds no word. *)
Lemma negative_limit_empty_chunk :
  split_into_chunks "a" (-1) = [""; "a"]
  /\ -1 < Py.len "" /\ Py.split "" = [].
Proof. repeat split. Qed.

(** C7.  For every text and every limit that is not negative, a chunk that
    is longer than the limit consists of exactly one word, the chunk itself,
    which is so longer than the limit; and a chunk of two words or more is
    no longer than the limit. *)
Theorem C7_chunk_over_limit_is_one_word
    (text : string) (max_length : Z) (c : string) :
  0 <= max_length ->
  In c (split_into_chunks text max_length) ->
  (max_length < Py.len c -> Py.split c = [c] /\ is_word c)
  /\ ((2 <= List.length (Py.split c))%nat -> Py.len c <= max_length).
Proof.
  intros HL Hin. split.
  - intros Hgt.
    pose proof (chunk_over_length_single max_length text c HL Hin Hgt) as E.
    split; [exact E|].
    pose proof (split_words c) as Hw. rewrite E in Hw. now inversion Hw.
  - now apply chunk_many_words_bound with (text := text).
Qed.

Lemma C7_chunk_over_limit_is_one_word_witness :
  0 <= 3
  /\ In "hello" (split_into_chunks "a hello b c" 3)
  /\ 3 < Py.len "hello"
  /\ Py.split "hello" = ["hello"] /\ is_word "hello".
Proof.
  assert (H0 : 0 <= 3) by lia.
  assert (H1 : In "hello" (split_into_chunks "a hello b c" 3))
    by (right; left; reflexivity).
  assert (H2 : 3 < Py.len "hello") by reflexivity.
  split; [exact H0|]. split; [exact H1|]. split; [exact H2|].
  exact (proj1 (C7_chunk_over_limit_is_one_word "a hello b c" 3 "hello"
                  H0 H1) H2).
Defined.

(** C8.  When [<] on scores is a strict weak order (asymmetric, with "not
    smaller" transitive), two items with identical scores stand in the
    ranked list in the order of the enumeration: if [x] comes
    before [y] among the scored items, it does so after sorting; more
    precisely, the items of any one score form the same sequence before and
    after sorting.  The retrieved list is then the contents of a prefix of
    the ranked list. *)
Theorem C8_ties_keep_enumeration_order
    (G : Gateways) (items : collection G) (query : string) :
  (forall a b, score_ltb G a b = true -> score_ltb G b a = false) ->
  (forall a b c, score_ltb G a b = false -> score_ltb G b c = false ->
                 score_ltb G a c = false) ->
  (forall x y : string * score G,
      snd x = snd y ->
      before x y (scored_chunks G items query) ->
      before x y (ranked_chunks G items query))
  /\ (forall tie : score G -> bool,
        (forall a b, tie a = true -> tie b = true -> a = b) ->
        filter (fun r => tie (snd r)) (ranked_chunks G items query)
        = filter (fun r => tie (snd r)) (scored_chunks G items query))
  /\ (forall k, exists n,
        retrieve_relevant_chunks G items query k
        = map fst (firstn n (ranked_chunks G items query))).
Proof.
  intros Hasym _.
  assert (Hirr : forall a, score_ltb G a a = false).
  { intros a. destruct (score_ltb G a a) eqn:E; [|reflexivity].
    rewrite <- E. now apply Hasym. }
  split; [|split].
  - intros x y Heq H. unfold ranked_chunks.
    apply sorted_reverse_before; [exact H|]. rewrite Heq. apply Hirr.
  - intros tie Htie. unfold ranked_chunks.
    apply (filter_sorted (score_ltb G) snd tie).
    intros a b Ha Hb. rewrite (Htie a b Ha Hb). apply Hirr.
  - intros k. eexists. reflexivity.
Qed.

Lemma C8_ties_keep_enumeration_order_witness :
  (forall a b, score_ltb (toy "No") a b = true
               -> score_ltb (toy "No") b a = false)
  /\ (forall a b c, score_ltb (toy "No") a b = false
                    -> score_ltb (toy "No") b c = false
                    -> score_ltb (toy "No") a c = false)
  /\ before ("first", 1) ("third", 1) (scored_chunks (toy "No") toy_items "q")
  /\ before ("first", 1) ("third", 1) (ranked_chunks (toy "No") toy_items "q").
Proof.
  assert (Hb : before ("first", 1) ("third", 1)
                 (scored_chunks (toy "No") toy_items "q")).
  { apply before_here. right. left. reflexivity. }
  split; [exact Z_ltb_asym|]. split; [exact Z_ltb_ntrans|].
  split; [exact Hb|].
  apply (proj1 (C8_ties_keep_enumeration_order (toy "No") toy_items "q"
                  Z_ltb_asym Z_ltb_ntrans)
               ("first", 1) ("third", 1) eq_refl Hb).
Defined.

(** C10.  When a first chunk was retrieved and the generated text is shorter
    than ten characters, the returned text is the generated text, then
    [" (Additional context: "], then an excerpt, then ["...)"]; the excerpt
    is the first [min(200, len(chunk))] characters of the first chunk, so it
    never exceeds 200 characters. *)
Theorem C10_fallback_text
    (G : Gateways) (items : collection G) (query : string)
    (fallback_chunk : string) (rest : list string) :
  retrieve_relevant_chunks G items query 5 = fallback_chunk :: rest ->
  Py.len (generated_text G items query) < 10 ->
  let excerpt := Py.str_slice_to fallback_chunk 200 in
  answer_question G items query
  = Py.Ok (generated_text G items query ++ " (Additional context: "
             ++ excerpt ++ "...)")
  /\ prefix excerpt fallback_chunk = true
  /\ Py.len excerpt = Z.min 200 (Py.len fallback_chunk)
  /\ Py.len excerpt <= 200.
Proof.
  intros Hr Hs excerpt. subst excerpt.
  split; [now apply answer_short with (rest := rest)|].
  split; [apply prefix_substring|].
  rewrite str_slice_to_len. unfold Py.slice_stop. simpl. lia.
Qed.

Lemma C10_fallback_text_witness :
  retrieve_relevant_chunks (toy "No") toy_items "q" 5
  = ["first"; "third"; "second"]
  /\ Py.len (generated_text (toy "No") toy_items "q") < 10
  /\ answer_question (toy "No") toy_items "q"
     = Py.Ok "No (Additional context: first...)".
Proof.
  split; [reflexivity|]. split; [reflexivity|].
  apply (proj1 (C10_fallback_text (toy "No") toy_items "q"
                  "first" ["third"; "second"] eq_refl eq_refl)).
Defined.

(** * Further properties of the chunker *)

Section ChunkerMore.

Variable max_length : Z.

Lemma join_words_not_empty (g : list string) :
  g <> [] -> Forall is_word g -> Py.join " " g <> "".
Proof.
  intros Hg Hw. destruct g as [|w g]; [now elim Hg|].
  inversion Hw as [|? ? [Hne _] _]; subst.
  destruct w as [|c w]; [now elim Hne|].
  destruct g; discriminate.
Qed.

Lemma pack_words (text : string) :
  Forall (Forall is_word) (pack max_length [] 0 (Py.split text)).
Proof.
  apply Forall_concat_inv. rewrite concat_pack. apply split_words.
Qed.

(** A chunk is the join of one of the groups of [pack]. *)
Lemma chunk_of_pack (text c : string) :
  In c (split_into_chunks text max_length) ->
  exists g, In g (pack max_length [] 0 (Py.split text))
            /\ c = Py.join " " g /\ Forall is_word g.
Proof.
  rewrite split_into_chunks_pack. pose proof (pack_words text) as Hall.
  destruct (Py.split text) as [|w ws]; [now intros []|].
  intros Hin. apply in_map_iff in Hin as [g [Hc Hg]].
  exists g. split; [exact Hg|]. split; [now symmetry|].
  rewrite Forall_forall in Hall. now apply Hall.
Qed.

(** The first group of [pack] starts with the open group. *)
Lemma pack_head (ws cur : list string) (n : Z) :
  exists more rest, pack max_length cur n ws = (cur ++ more)%list :: rest.
Proof.
  revert cur n. induction ws as [|w ws IH]; intros cur n; simpl.
  - exists [], []. now rewrite app_nil_r.
  - destruct (n + Py.len w <=? max_length).
    + destruct (IH (cur ++ [w])%list (n + (Py.len w + 1))) as [more [rest E]].
      exists (w :: more), rest. rewrite E. now rewrite <- app_assoc.
    + exists [], (pack max_length [w] (Py.len w + 1) ws).
      now rewrite app_nil_r.
Qed.

(** A group is closed only before a word that does not pass the test. *)
Lemma pack_adjacent (ws cur : list string) (n : Z)
    (l1 : list (list string)) (g g' : list string) (l2 : list (list string)) :
  n = total cur ->
  pack max_length cur n ws = (l1 ++ g :: g' :: l2)%list ->
  exists w' more, g' = w' :: more /\ max_length < total g + Py.len w'.
Proof.
  revert cur n l1. induction ws as [|w ws IH]; intros cur n l1 Hn E.
  - simpl in E. destruct l1 as [|a [|b l1]]; discriminate.
  - simpl in E. destruct (n + Py.len w <=? max_length) eqn:Hle.
    + apply (IH (cur ++ [w])%list (n + (Py.len w + 1)) l1);
        [rewrite total_app; simpl; lia | exact E].
    + destruct l1 as [|a l1].
      * simpl in E. injection E as <- E.
        destruct (pack_head ws [w] (Py.len w + 1)) as [more [rest E']].
        rewrite E' in E. injection E as <- _.
        exists w, more. split; [reflexivity|].
        apply Z.leb_gt in Hle. lia.
      * simpl in E. injection E as _ E.
        apply (IH [w] (Py.len w + 1) l1); [simpl; lia | exact E].
Qed.

Lemma closing_length_join (g : list string) :
  Forall is_word g -> closing_length (Py.join " " g) = total g.
Proof.
  intros Hw. destruct g as [|w g]; [reflexivity|].
  pose proof (join_words_not_empty (w :: g) ltac:(discriminate) Hw) as Hne.
  unfold closing_length.
  destruct (Py.join " " (w :: g)) eqn:E; [now elim Hne|].
  rewrite <- E, len_join by discriminate. lia.
Qed.

Lemma split_from_nil_iff (s cur : string) :
  Py.split_from cur s = [] <-> cur = "" /\ all_space s = true.
Proof.
  revert cur. induction s as [|c s IH]; intros cur; simpl.
  - destruct cur; simpl; intuition discriminate.
  - destruct (Py.isspace c); simpl.
    + destruct cur; simpl.
      * rewrite IH. intuition.
      * intuition discriminate.
    + rewrite IH. split; [|intros [_ H]; discriminate].
      intros [H _]. destruct cur; discriminate.
Qed.

End ChunkerMore.

(** X1.  For every text and every limit, the words of the chunks, read chunk
    after chunk, are the words of the text: none is lost, none is repeated,
    and the order is kept. *)
Theorem X1_chunks_keep_words (text : string) (max_length : Z) :
  List.concat (map Py.split (split_into_chunks text max_length))
  = Py.split text.
Proof. apply split_into_chunks_words. Qed.

(** X2.  The chunks joined with single spaces give the words of the text
    joined with single spaces when the first word is not longer than the
    limit, the same after one space when it is longer, and the empty text
    when the text has no word. *)
Theorem X2_joined_chunks (text : string) (max_length : Z) :
  Py.join " " (split_into_chunks text max_length)
  = match Py.split text with
    | [] => ""
    | w :: _ =>
        if Py.len w <=? max_length then Py.join " " (Py.split text)
        else " " ++ Py.join " " (Py.split text)
    end.
Proof. apply join_chunks. Qed.

(** X3.  With a limit that is not negative, every chunk is either no longer
    than the limit or a single word of the text that is longer than the
    limit: words are never cut and an over-long chunk never holds two
    words. *)
Theorem X3_chunk_within_limit_or_one_word
    (text : string) (max_length : Z) (c : string) :
  0 <= max_length ->
  In c (split_into_chunks text max_length) ->
  Py.len c <= max_length
  \/ (max_length < Py.len c /\ is_word c /\ In c (Py.split text)).
Proof.
  intros HL Hin.
  destruct (Z.le_gt_cases (Py.len c) max_length) as [Hle|Hgt]; [now left|].
  right. split; [exact Hgt|].
  pose proof (chunk_over_length_single max_length text c HL Hin Hgt) as Hone.
  destruct (chunk_of_pack max_length text c Hin) as [g [Hg [Hc Hw]]].
  assert (Eg : g = [c]) by (rewrite <- Hone, Hc; symmetry; now apply split_join).
  subst g. inversion Hw; subst. split; [assumption|].
  assert (Hcc : In c (List.concat (pack max_length [] 0 (Py.split text)))).
  { apply in_concat. exists [c]. split; [exact Hg | now left]. }
  now rewrite concat_pack in Hcc.
Qed.

Lemma X3_chunk_within_limit_or_one_word_witness :
  0 <= 3
  /\ In "hello" (split_into_chunks "a hello" 3)
  /\ (Py.len "hello" <= 3
      \/ (3 < Py.len "hello" /\ is_word "hello"
          /\ In "hello" (Py.split "a hello"))).
Proof.
  assert (H0 : 0 <= 3) by lia.
  assert (H1 : In "hello" (split_into_chunks "a hello" 3))
    by (right; left; reflexivity).
  split; [exact H0|]. split; [exact H1|].
  exact (X3_chunk_within_limit_or_one_word "a hello" 3 "hello" H0 H1).
Defined.

(** The shape of the result: nothing for a text without a word, otherwise
    non-empty chunks after a possible empty one. *)
Lemma chunks_shape (text : string) (max_length : Z) :
  match Py.split text with
  | [] => split_into_chunks text max_length = []
  | w :: _ =>
      exists rest,
        rest <> [] /\ Forall (fun c => c <> "") rest
        /\ split_into_chunks text max_length
           = if Py.len w <=? max_length then rest else "" :: rest
  end.
Proof.
  rewrite split_into_chunks_pack. pose proof (split_words text) as Hw.
  destruct (Py.split text) as [|w ws]; [reflexivity|].
  simpl pack. change (0 + Py.len w) with (Py.len w).
  exists (map (Py.join " ") (pack max_length [w] (Py.len w + 1) ws)).
  split; [|split].
  - intros H. apply map_eq_nil in H. now apply pack_nonnil in H.
  - apply Forall_forall. intros c Hc.
    apply in_map_iff in Hc as [g [<- Hg]].
    apply join_words_not_empty.
    + pose proof (pack_nonempty max_length [w] (Py.len w + 1) ws
                    ltac:(discriminate)) as Hne.
      rewrite Forall_forall in Hne. now apply Hne.
    + assert (Hall : Forall (Forall is_word)
                       (pack max_length [w] (Py.len w + 1) ws)).
      { apply Forall_concat_inv. now rewrite concat_pack. }
      rewrite Forall_forall in Hall. now apply Hall.
  - now destruct (Py.len w <=? max_length).
Qed.

(** X4.  A text without a word gives no chunk.  Otherwise the chunker gives
    a non-empty list of non-empty chunks, with one empty chunk in front of
    them exactly when the first word is longer than the limit. *)
Theorem X4_only_first_chunk_can_be_empty (text : string) (max_length : Z) :
  match Py.split text with
  | [] => split_into_chunks text max_length = []
  | w :: _ =>
      exists rest,
        rest <> [] /\ Forall (fun c => c <> "") rest
        /\ split_into_chunks text max_length
           = if Py.len w <=? max_length then rest else "" :: rest
  end.
Proof. apply chunks_shape. Qed.

(** The chunker gives no chunk exactly for a text of whitespace. *)
Lemma chunks_nil_iff (text : string) (max_length : Z) :
  split_into_chunks text max_length = [] <-> all_space text = true.
Proof.
  pose proof (chunks_shape text max_length) as H.
  pose proof (split_from_nil_iff text "") as Hs. fold (Py.split text) in Hs.
  destruct (Py.split text) as [|w ws].
  - rewrite H. split; [intros _; now apply Hs | reflexivity].
  - destruct H as [rest [Hne [_ E]]]. split.
    + intros H0. rewrite H0 in E.
      destruct (Py.len w <=? max_length); [now subst rest | discriminate].
    + intros Hb. destruct Hs as [_ Hs]. discriminate Hs. now split.
Qed.

(** X5.  The chunker returns no chunk at all if and only if the text is made
    of whitespace only (the empty text included). *)
Theorem X5_no_chunk_iff_blank (text : string) (max_length : Z) :
  split_into_chunks text max_length = [] <-> all_space text = true.
Proof. apply chunks_nil_iff. Qed.

(** X6.  Every chunk is whitespace-normalised: it is its own words joined
    with single spaces, so it has no leading, trailing or doubled
    separator. *)
Theorem X6_chunk_is_normalised (text : string) (max_length : Z) (c : string) :
  In c (split_into_chunks text max_length) ->
  Py.join " " (Py.split c) = c.
Proof.
  intros Hin. destruct (chunk_of_pack max_length text c Hin) as [g [_ [-> Hw]]].
  now rewrite split_join.
Qed.

Lemma X6_chunk_is_normalised_witness :
  In "c d" (split_into_chunks "a  b c   d " 3)
  /\ Py.join " " (Py.split "c d") = "c d".
Proof.
  assert (H : In "c d" (split_into_chunks "a  b c   d " 3))
    by (right; left; reflexivity).
  split; [exact H|].
  exact (X6_chunk_is_normalised "a  b c   d " 3 "c d" H).
Defined.

(** X7.  The packing is greedy: wherever a chunk [c] is followed by a chunk
    [c'], the first word of [c'] did not fit after [c], that is the running
    length at the end of [c] (nothing for an empty chunk, else
    [len(c) + 1]) plus the length of that word is more than the limit. *)
Theorem X7_chunk_closed_only_when_full
    (text : string) (max_length : Z) (l1 : list string) (c c' : string)
    (l2 : list string) :
  split_into_chunks text max_length = (l1 ++ c :: c' :: l2)%list ->
  exists w' ws',
    Py.split c' = w' :: ws'
    /\ max_length < closing_length c + Py.len w'.
Proof.
  rewrite split_into_chunks_pack. pose proof (pack_words max_length text) as Hall.
  destruct (Py.split text) as [|w ws].
  { intros E. destruct l1; discriminate. }
  intros E. apply map_eq_app in E as [gs1 [gs' [Ep [_ E]]]].
  apply map_eq_cons in E as [g [gs'' [-> [Hc E]]]].
  apply map_eq_cons in E as [g' [gs2 [-> [Hc' _]]]].
  rewrite Ep in Hall. apply Forall_app in Hall as [_ Hall].
  inversion Hall as [|? ? Hg Hall']; subst.
  inversion Hall' as [|? ? Hg' _]; subst.
  destruct (pack_adjacent max_length _ _ _ _ _ _ _ eq_refl Ep)
    as [w' [more [-> Hlt]]].
  exists w', more. split; [now apply split_join|].
  now rewrite closing_length_join.
Qed.

Lemma X7_chunk_closed_only_when_full_witness :
  split_into_chunks "a b c d" 3 = ([] ++ "a b" :: "c d" :: [])%list
  /\ exists w' ws',
       Py.split "c d" = w' :: ws' /\ 3 < closing_length "a b" + Py.len w'.
Proof.
  split; [reflexivity|].
  exact (X7_chunk_closed_only_when_full "a b c d" 3 [] "a b" "c d" []
           eq_refl).
Defined.

(** X8.  A text that is one word gives that word as only chunk when the word
    is not longer than the limit, and an empty chunk followed by the word
    when it is longer. *)
Theorem X8_one_word_text (w : string) (max_length : Z) :
  is_word w ->
  split_into_chunks w max_length
  = if Py.len w <=? max_length then [w] else [""; w].
Proof. apply split_into_chunks_one_word. Qed.

Lemma X8_one_word_text_witness :
  is_word "hello"
  /\ split_into_chunks "hello" 5 = [ "hello" ].
Proof.
  assert (H : is_word "hello") by (split; [discriminate | reflexivity]).
  split; [exact H|].
  exact (X8_one_word_text "hello" 5 H).
Defined.

(** * Further properties of the retrieval *)

Section SortingMore.

Context {A K : Type}.
Variable ltb : K -> K -> bool.
Variable key : A -> K.

Lemma insert_perm (x : A) (l : list A) :
  Permutation (Py.insert ltb key x l) (x :: l).
Proof.
  induction l as [|y l IH]; simpl; [apply Permutation_refl|].
  destruct (ltb (key y) (key x)); [|apply Permutation_refl].
  apply perm_trans with (y :: x :: l); [now apply perm_skip | apply perm_swap].
Qed.

Lemma sort_asc_perm (l : list A) : Permutation (Py.sort_asc ltb key l) l.
Proof.
  induction l as [|x l IH]; simpl; [apply perm_nil|].
  apply perm_trans with (x :: Py.sort_asc ltb key l);
    [apply insert_perm | now apply perm_skip].
Qed.

(** [sorted] rearranges its argument and nothing more. *)
Lemma sorted_perm (reverse : bool) (l : list A) :
  Permutation (Py.sorted ltb key reverse l) l.
Proof.
  unfold Py.sorted. destruct reverse; [|apply sort_asc_perm].
  apply perm_trans with (Py.sort_asc ltb key (rev l)).
  - apply Permutation_sym, Permutation_rev.
  - apply perm_trans with (rev l);
      [apply sort_asc_perm | apply Permutation_sym, Permutation_rev].
Qed.

Lemma StronglySorted_snoc (R : A -> A -> Prop) (l : list A) (x : A) :
  StronglySorted R l -> Forall (fun y => R y x) l ->
  StronglySorted R (l ++ [x]).
Proof.
  induction 1 as [|y l Hs IH Hy]; intros Hx; simpl.
  - constructor; constructor.
  - inversion Hx; subst. constructor; [now apply IH|].
    apply Forall_app. split; [exact Hy | now constructor].
Qed.

Lemma StronglySorted_rev (R : A -> A -> Prop) (l : list A) :
  StronglySorted R l -> StronglySorted (fun a b => R b a) (rev l).
Proof.
  induction 1 as [|y l Hs IH Hy]; simpl; [constructor|].
  apply StronglySorted_snoc; [exact IH|]. now apply Forall_rev.
Qed.

Lemma StronglySorted_app_inv (R : A -> A -> Prop) (l1 l2 : list A) :
  StronglySorted R (l1 ++ l2) ->
  forall a b, In a l1 -> In b l2 -> R a b.
Proof.
  induction l1 as [|x l1 IH]; intros Hs a b Ha Hb; [now elim Ha|].
  simpl in Hs. inversion Hs as [|? ? Hs' Hx]; subst.
  destruct Ha as [->|Ha]; [|now apply IH].
  rewrite Forall_forall in Hx. apply Hx, in_or_app. now right.
Qed.

(** When [<] on keys is a strict weak order, the sort sorts. *)
Section Order.

Hypothesis ltb_asym : forall a b, ltb a b = true -> ltb b a = false.
Hypothesis ltb_ntrans :
  forall a b c, ltb a b = false -> ltb b c = false -> ltb a c = false.

Lemma insert_sorted (x : A) (l : list A) :
  StronglySorted (fun a b => ltb (key b) (key a) = false) l ->
  StronglySorted (fun a b => ltb (key b) (key a) = false)
                 (Py.insert ltb key x l).
Proof.
  induction 1 as [|y l Hs IH Hy]; simpl.
  - constructor; constructor.
  - destruct (ltb (key y) (key x)) eqn:Hlt.
    + constructor; [exact IH|].
      apply Forall_forall. intros z Hz. apply insert_In in Hz as [->|Hz].
      * now apply ltb_asym.
      * rewrite Forall_forall in Hy. now apply Hy.
    + constructor; [now constructor|].
      constructor; [exact Hlt|].
      apply Forall_forall. intros z Hz. rewrite Forall_forall in Hy.
      apply ltb_ntrans with (key y); [now apply Hy | exact Hlt].
Qed.

Lemma sort_asc_sorted (l : list A) :
  StronglySorted (fun a b => ltb (key b) (key a) = false)
                 (Py.sort_asc ltb key l).
Proof.
  induction l as [|x l IH]; simpl; [constructor | now apply insert_sorted].
Qed.

(** The reversed sort puts no element before a greater one. *)
Lemma sorted_reverse_sorted (l : list A) :
  StronglySorted (fun a b => ltb (key a) (key b) = false)
                 (Py.sorted ltb key true l).
Proof.
  unfold Py.sorted.
  apply (StronglySorted_rev (fun a b => ltb (key b) (key a) = false)).
  apply sort_asc_sorted.
Qed.

End Order.

End SortingMore.

Section RetrievalMore.

Variable G : Gateways.

Lemma slice_to_all {A : Type} (l : list A) (k : Z) :
  Z.of_nat (List.length l) <= k -> Py.slice_to l k = l.
Proof.
  intros H. unfold Py.slice_to, Py.slice_stop.
  destruct (k <? 0) eqn:E; [apply Z.ltb_lt in E; lia|].
  apply firstn_all2. lia.
Qed.

Lemma slice_to_split {A : Type} (l : list A) (k : Z) :
  exists rest, l = (Py.slice_to l k ++ rest)%list.
Proof.
  unfold Py.slice_to. eexists. symmetry. apply firstn_skipn.
Qed.

Lemma ranked_chunks_perm (items : collection G) (query : string) :
  Permutation (ranked_chunks G items query) (scored_chunks G items query).
Proof. apply sorted_perm. Qed.

Lemma scored_chunks_contents (items : collection G) (query : string) :
  map fst (scored_chunks G items query) = map fst items.
Proof. unfold scored_chunks. cbv zeta. rewrite map_map. reflexivity. Qed.

Lemma upload_chunks_app (chunks : list string) (items : collection G) :
  upload_chunks G chunks items
  = (items ++ map (fun c => (c, encode G c)) chunks)%list.
Proof.
  unfold upload_chunks. revert items.
  induction chunks as [|c chunks IH]; intros items; simpl.
  - now rewrite app_nil_r.
  - rewrite IH. unfold upload_step. now rewrite <- app_assoc.
Qed.

(** With something in the collection, a text is returned. *)
Lemma answer_defined (items : collection G) (query : string) :
  items <> [] -> exists text, answer_question G items query = Py.Ok text.
Proof.
  intros Hne.
  destruct (retrieve_relevant_chunks G items query 5) as [|c rest] eqn:Hr.
  { apply retrieve_nil_iff in Hr; [now elim Hne | lia]. }
  destruct (Z.lt_ge_cases (Py.len (generated_text G items query)) 10)
    as [Hs|Hl].
  - eexists. exact (answer_short _ _ _ _ _ Hr Hs).
  - eexists. exact (answer_long _ _ _ Hl).
Qed.

End RetrievalMore.

(** A [top_k] that covers the collection retrieves every content. *)
Lemma retrieve_all_perm
    (G : Gateways) (items : collection G) (query : string) (top_k : Z) :
  Z.of_nat (List.length items) <= top_k ->
  Permutation (retrieve_relevant_chunks G items query top_k) (map fst items).
Proof.
  intros Hk. unfold retrieve_relevant_chunks. cbv zeta.
  rewrite slice_to_all by (now rewrite ranked_chunks_length).
  rewrite <- (scored_chunks_contents G items query).
  apply Permutation_map, ranked_chunks_perm.
Qed.

(** X9.  Sorting loses and repeats nothing: the ranked list is a
    rearrangement of the scored items, and a [top_k] that is at least the
    number of items retrieves the contents of all of them. *)
Theorem X9_retrieve_everything
    (G : Gateways) (items : collection G) (query : string) (top_k : Z) :
  Permutation (ranked_chunks G items query) (scored_chunks G items query)
  /\ (Z.of_nat (List.length items) <= top_k ->
      Permutation (retrieve_relevant_chunks G items query top_k)
                  (map fst items)).
Proof.
  split; [apply ranked_chunks_perm | apply retrieve_all_perm].
Qed.

Lemma X9_retrieve_everything_witness :
  Z.of_nat (List.length toy_items) <= 5
  /\ Permutation (retrieve_relevant_chunks (toy "No") toy_items "q" 5)
                 (map fst toy_items).
Proof.
  assert (H : Z.of_nat (List.length toy_items) <= 5) by (simpl; lia).
  split; [exact H|].
  exact (proj2 (X9_retrieve_everything (toy "No") toy_items "q" 5) H).
Defined.

(** X10.  Whatever [top_k] is, every chunk retrieved is the content of an
    item of the collection. *)
Theorem X10_retrieved_chunks_are_stored
    (G : Gateways) (items : collection G) (query : string) (top_k : Z)
    (c : string) :
  In c (retrieve_relevant_chunks G items query top_k) ->
  exists v, In (c, v) items.
Proof.
  unfold retrieve_relevant_chunks. cbv zeta. intros Hin.
  apply in_map_iff in Hin as [p [<- Hp]].
  destruct (slice_to_split (ranked_chunks G items query) top_k) as [rest E].
  assert (Hr : In p (ranked_chunks G items query))
    by (rewrite E; apply in_or_app; now left).
  apply (Permutation_in _ (ranked_chunks_perm G items query)) in Hr.
  unfold scored_chunks in Hr. cbv zeta in Hr.
  apply in_map_iff in Hr as [[content v] [<- Hi]].
  exists v. exact Hi.
Qed.

Lemma X10_retrieved_chunks_are_stored_witness :
  In "third" (retrieve_relevant_chunks (toy "No") toy_items "q" 2)
  /\ exists v, In ("third", v) toy_items.
Proof.
  assert (H : In "third" (retrieve_relevant_chunks (toy "No") toy_items "q" 2))
    by (right; left; reflexivity).
  split; [exact H|].
  exact (X10_retrieved_chunks_are_stored (toy "No") toy_items "q" 2 "third" H).
Defined.

(** X11.  When [<] on scores is asymmetric and "not smaller" is transitive,
    the ranked list is in non-increasing order of score: no entry has a
    smaller score than an entry after it. *)
Theorem X11_ranked_in_descending_order
    (G : Gateways) (items : collection G) (query : string) :
  (forall a b, score_ltb G a b = true -> score_ltb G b a = false) ->
  (forall a b c, score_ltb G a b = false -> score_ltb G b c = false ->
                 score_ltb G a c = false) ->
  StronglySorted (fun x y => score_ltb G (snd x) (snd y) = false)
                 (ranked_chunks G items query).
Proof.
  intros Hasym Hnt. unfold ranked_chunks.
  now apply (sorted_reverse_sorted (score_ltb G) snd).
Qed.

(** X12.  Under the same conditions the chunks retrieved are the best ones:
    the ranked list is the retrieved entries followed by the entries left
    out, and no retrieved entry has a smaller score than one left out. *)
Theorem X12_retrieved_chunks_score_highest
    (G : Gateways) (items : collection G) (query : string) (top_k : Z) :
  (forall a b, score_ltb G a b = true -> score_ltb G b a = false) ->
  (forall a b c, score_ltb G a b = false -> score_ltb G b c = false ->
                 score_ltb G a c = false) ->
  exists top rest,
    ranked_chunks G items query = (top ++ rest)%list
    /\ retrieve_relevant_chunks G items query top_k = map fst top
    /\ forall x y, In x top -> In y rest ->
                   score_ltb G (snd x) (snd y) = false.
Proof.
  intros Hasym Hnt.
  destruct (slice_to_split (ranked_chunks G items query) top_k) as [rest E].
  exists (Py.slice_to (ranked_chunks G items query) top_k), rest.
  split; [exact E|]. split; [reflexivity|].
  apply (StronglySorted_app_inv
           (fun x y => score_ltb G (snd x) (snd y) = false)).
  rewrite <- E. unfold ranked_chunks.
  now apply (sorted_reverse_sorted (score_ltb G) snd).
Qed.

Lemma X11_ranked_in_descending_order_witness :
  (forall a b, score_ltb (toy "No") a b = true
               -> score_ltb (toy "No") b a = false)
  /\ (forall a b c, score_ltb (toy "No") a b = false
                    -> score_ltb (toy "No") b c = false
                    -> score_ltb (toy "No") a c = false)
  /\ StronglySorted
       (fun x y => score_ltb (toy "No") (snd x) (snd y) = false)
       (ranked_chunks (toy "No") toy_items "q").
Proof.
  split; [exact Z_ltb_asym|]. split; [exact Z_ltb_ntrans|].
  exact (X11_ranked_in_descending_order (toy "No") toy_items "q"
           Z_ltb_asym Z_ltb_ntrans).
Defined.

Lemma X12_retrieved_chunks_score_highest_witness :
  (forall a b, score_ltb (toy "No") a b = true
               -> score_ltb (toy "No") b a = false)
  /\ (forall a b c, score_ltb (toy "No") a b = false
                    -> score_ltb (toy "No") b c = false
                    -> score_ltb (toy "No") a c = false)
  /\ exists top rest,
       ranked_chunks (toy "No") toy_items "q" = (top ++ rest)%list
       /\ retrieve_relevant_chunks (toy "No") toy_items "q" 2 = map fst top
       /\ forall x y, In x top -> In y rest ->
                      score_ltb (toy "No") (snd x) (snd y) = false.
Proof.
  split; [exact Z_ltb_asym|]. split; [exact Z_ltb_ntrans|].
  exact (X12_retrieved_chunks_score_highest (toy "No") toy_items "q" 2
           Z_ltb_asym Z_ltb_ntrans).
Defined.

(** * Further properties of the answer and of the upload *)

(** X13.  [answer_question] ends in [IndexError] if and only if the
    collection is empty and the generated text is shorter than ten
    characters; in every other case it returns a text. *)
Theorem X13_answer_fails_iff
    (G : Gateways) (items : collection G) (query : string) :
  (answer_question G items query = Py.IndexError
   <-> items = [] /\ Py.len (generated_text G items query) < 10)
  /\ (answer_question G items query <> Py.IndexError ->
      exists text, answer_question G items query = Py.Ok text).
Proof.
  split.
  - split.
    + intros H.
      destruct (retrieve_relevant_chunks G items query 5) as [|c rest] eqn:Hr.
      * split; [apply retrieve_nil_iff in Hr; [exact Hr | lia]|].
        destruct (Z.lt_ge_cases (Py.len (generated_text G items query)) 10)
          as [Hs|Hl]; [exact Hs|].
        rewrite (answer_long _ _ _ Hl) in H. discriminate.
      * destruct (Z.lt_ge_cases (Py.len (generated_text G items query)) 10)
          as [Hs|Hl].
        -- rewrite (answer_short _ _ _ _ _ Hr Hs) in H. discriminate.
        -- rewrite (answer_long _ _ _ Hl) in H. discriminate.
    + intros [Hi Hs]. apply answer_short_nothing_retrieved; [|exact Hs].
      apply retrieve_nil_iff; [lia | exact Hi].
  - intros H. destruct (answer_question G items query) as [text|];
      [now exists text | now elim H].
Qed.

(** X14.  The slice [relevant_chunks[:top]] in [answer_question] changes
    nothing: at most five chunks are retrieved, and the context of the
    prompt is all of them joined by newlines. *)
Theorem X14_context_is_all_retrieved_chunks
    (G : Gateways) (items : collection G) (query : string) :
  (List.length (retrieve_relevant_chunks G items query 5) <= 5)%nat
  /\ generated_text G items query
     = qa_pipeline G
         (prompt_of (Py.join nl (retrieve_relevant_chunks G items query 5))
                    query)
         200.
Proof.
  pose proof (retrieve_length G items query 5) as H.
  unfold Py.slice_stop in H. change (5 <? 0) with false in H. cbv iota in H.
  assert (Hle : Z.of_nat (List.length (retrieve_relevant_chunks G items query 5))
                <= 5) by lia.
  split; [lia|].
  unfold generated_text. cbv zeta. now rewrite slice_to_all.
Qed.

(** X15.  A text returned through the short-answer fallback has at most 235
    characters: fewer than ten generated, 26 of fixed text and at most 200
    of the first chunk. *)
Theorem X15_fallback_answer_length
    (G : Gateways) (items : collection G) (query : string) (text : string) :
  answer_question G items query = Py.Ok text ->
  Py.len (generated_text G items query) < 10 ->
  Py.len text <= 235.
Proof.
  intros H Hs.
  destruct (retrieve_relevant_chunks G items query 5) as [|c rest] eqn:Hr.
  - rewrite (answer_short_nothing_retrieved _ _ _ Hr Hs) in H. discriminate.
  - assert (E : text
                = generated_text G items query ++ " (Additional context: "
                    ++ Py.str_slice_to c 200 ++ "...)")
      by (rewrite (answer_short _ _ _ _ _ Hr Hs) in H; congruence).
    rewrite E, !len_append, str_slice_to_len.
    pose proof (len_nonneg c).
    change (Py.len " (Additional context: ") with 22.
    change (Py.len "...)") with 4.
    unfold Py.slice_stop. change (200 <? 0) with false. cbv iota. lia.
Qed.

Lemma X15_fallback_answer_length_witness :
  answer_question (toy "No") toy_items "q"
  = Py.Ok "No (Additional context: first...)"
  /\ Py.len (generated_text (toy "No") toy_items "q") < 10
  /\ Py.len "No (Additional context: first...)" <= 235.
Proof.
  split; [reflexivity|]. split; [reflexivity|].
  exact (X15_fallback_answer_length (toy "No") toy_items "q"
           "No (Additional context: first...)" eq_refl eq_refl).
Defined.

(** X17.  Once a book with at least one word has been uploaded, in whatever
    order the store enumerates its items, [answer_question] returns a text
    for every query: it cannot end in [IndexError]. *)
Theorem X17_answer_defined_after_upload
    (G : Gateways) (book_text : string) (items items' : collection G)
    (query : string) :
  all_space book_text = false ->
  Permutation items' (ingest G book_text items) ->
  exists text, answer_question G items' query = Py.Ok text.
Proof.
  intros Hb Hp. apply answer_defined. intros ->.
  apply Permutation_nil in Hp. unfold ingest in Hp. cbv zeta in Hp.
  rewrite upload_chunks_app in Hp. apply app_eq_nil in Hp as [_ Hp].
  apply map_eq_nil in Hp. apply chunks_nil_iff in Hp. congruence.
Qed.

Lemma X17_answer_defined_after_upload_witness :
  all_space "a b" = false
  /\ Permutation (ingest (toy "No") "a b" []) (ingest (toy "No") "a b" [])
  /\ exists text,
       answer_question (toy "No") (ingest (toy "No") "a b" []) "q"
       = Py.Ok text.
Proof.
  assert (Hp : Permutation (ingest (toy "No") "a b" [])
                           (ingest (toy "No") "a b" []))
    by apply Permutation_refl.
  split; [reflexivity|]. split; [exact Hp|].
  exact (X17_answer_defined_after_upload (toy "No") "a b" [] _ "q"
           eq_refl Hp).
Defined.

(** X18.  Uploading a book into an empty collection and retrieving with a
    [top_k] that is at least the number of chunks gives the chunks back, in
    some order, whatever the query and the order of enumeration. *)
Theorem X18_upload_then_retrieve_all
    (G : Gateways) (book_text : string) (items' : collection G)
    (query : string) (top_k : Z) :
  Permutation items' (ingest G book_text []) ->
  Z.of_nat (List.length (split_into_chunks book_text 500)) <= top_k ->
  Permutation (retrieve_relevant_chunks G items' query top_k)
              (split_into_chunks book_text 500).
Proof.
  intros Hp Hk.
  assert (E : map fst (ingest G book_text [])
              = split_into_chunks book_text 500).
  { unfold ingest. cbv zeta. rewrite upload_chunks_app. simpl.
    rewrite map_map. simpl. apply map_id. }
  apply perm_trans with (map fst items').
  - apply retrieve_all_perm.
    rewrite (Permutation_length Hp), <- E, length_map in *. exact Hk.
  - rewrite <- E. now apply Permutation_map.
Qed.

Lemma X18_upload_then_retrieve_all_witness :
  Permutation (ingest (toy "No") "a b" []) (ingest (toy "No") "a b" [])
  /\ Z.of_nat (List.length (split_into_chunks "a b" 500)) <= 5
  /\ Permutation
       (retrieve_relevant_chunks (toy "No") (ingest (toy "No") "a b" []) "q" 5)
       (split_into_chunks "a b" 500).
Proof.
  assert (Hp : Permutation (ingest (toy "No") "a b" [])
                           (ingest (toy "No") "a b" []))
    by apply Permutation_refl.
  assert (Hk : Z.of_nat (List.length (split_into_chunks "a b" 500)) <= 5)
    by (simpl; lia).
  split; [exact Hp|]. split; [exact Hk|].
  exact (X18_upload_then_retrieve_all (toy "No") "a b" _ "q" 5 Hp Hk).
Defined.

(** * Texts that fit in one chunk *)

Lemma total_nonneg (g : list string) : 0 <= total g.
Proof.
  induction g as [|w g IH]; simpl; [lia|]. pose proof (len_nonneg w). lia.
Qed.

(** When all the words fit after the open group, no group is closed. *)
Lemma pack_all_fit (max_length : Z) (ws cur : list string) (n : Z) :
  n = total cur -> total (cur ++ ws) - 1 <= max_length ->
  pack max_length cur n ws = [(cur ++ ws)%list].
Proof.
  revert cur n. induction ws as [|w ws IH]; intros cur n Hn Hle; simpl.
  - now rewrite app_nil_r.
  - rewrite total_app in Hle. simpl in Hle.
    pose proof (total_nonneg ws).
    destruct (n + Py.len w <=? max_length) eqn:E;
      [|apply Z.leb_gt in E; lia].
    rewrite IH.
    + now rewrite <- app_assoc.
    + rewrite total_app. simpl. lia.
    + rewrite <- app_assoc, total_app. simpl. lia.
Qed.

Lemma one_chunk_when_fits (text : string) (max_length : Z) :
  Py.split text <> [] ->
  Py.len (Py.join " " (Py.split text)) <= max_length ->
  split_into_chunks text max_length = [Py.join " " (Py.split text)].
Proof.
  intros Hne Hle. rewrite split_into_chunks_pack.
  destruct (Py.split text) as [|w ws]; [now elim Hne|].
  rewrite len_join in Hle by discriminate.
  now rewrite (pack_all_fit max_length (w :: ws) [] 0 eq_refl Hle).
Qed.

(** X19.  A text with at least one word whose words, joined with single
    spaces, are no longer than the limit is kept whole: the chunker returns
    that joined text as the only chunk. *)
Theorem X19_text_that_fits_is_one_chunk (text : string) (max_length : Z) :
  Py.split text <> [] ->
  Py.len (Py.join " " (Py.split text)) <= max_length ->
  split_into_chunks text max_length = [Py.join " " (Py.split text)].
Proof. apply one_chunk_when_fits. Qed.

Lemma X19_text_that_fits_is_one_chunk_witness :
  Py.split " a  b " <> []
  /\ Py.len (Py.join " " (Py.split " a  b ")) <= 3
  /\ split_into_chunks " a  b " 3 = ["a b"].
Proof.
  assert (H1 : Py.split " a  b " <> []) by discriminate.
  assert (H2 : Py.len (Py.join " " (Py.split " a  b ")) <= 3)
    by (simpl; unfold Py.len; simpl; lia).
  split; [exact H1|]. split; [exact H2|].
  exact (X19_text_that_fits_is_one_chunk " a  b " 3 H1 H2).
Defined.

(** X20.  Chunking is stable on its own output: a non-empty chunk that is no
    longer than the limit, chunked again with the same limit, is returned
    unchanged as the only chunk. *)
Theorem X20_chunk_rechunked_is_itself
    (text : string) (max_length : Z) (c : string) :
  In c (split_into_chunks text max_length) ->
  c <> "" ->
  Py.len c <= max_length ->
  split_into_chunks c max_length = [c].
Proof.
  intros Hin Hne Hle.
  destruct (chunk_of_pack max_length text c Hin) as [g [_ [Hc Hw]]].
  assert (Hs : Py.split c = g) by (rewrite Hc; now apply split_join).
  assert (Hj : Py.join " " (Py.split c) = c) by (now rewrite Hs).
  rewrite <- Hj at 2. apply one_chunk_when_fits.
  - rewrite Hs. intros ->. now apply Hne.
  - now rewrite Hj.
Qed.

Lemma X20_chunk_rechunked_is_itself_witness :
  In "c d" (split_into_chunks "a b c d" 3)
  /\ "c d" <> ""
  /\ Py.len "c d" <= 3
  /\ split_into_chunks "c d" 3 = ["c d"].
Proof.
  assert (H1 : In "c d" (split_into_chunks "a b c d" 3))
    by (right; left; reflexivity).
  assert (H2 : "c d" <> "") by discriminate.
  assert (H3 : Py.len "c d" <= 3) by (unfold Py.len; simpl; lia).
  split; [exact H1|]. split; [exact H2|]. split; [exact H3|].
  exact (X20_chunk_rechunked_is_itself "a b c d" 3 "c d" H1 H2 H3).
Defined.
